(** * DocumentMCP: the document registry of [src/mcp/mcp_server.py]

    The server keeps one module-level Python [dict], [docs], from document
    id to document text, and registers five handlers on it: the tools
    [read_doc] and [edit_doc], the resources [docs://documents] and
    [docs://documents/{doc_id}], and the prompt [format].

    A Python [dict] iterates in insertion order and [list_docs] exposes that
    order, so the registry is embedded as an association list whose order is
    the insertion order.  Handlers read and write the shared dict and may
    raise; they are embedded in a small state-and-exception monad in which a
    raised exception keeps the state it was raised in, as in Python. *)

From Stdlib Require Import String Ascii List Bool PeanoNat Lia.
Import ListNotations.
Local Open Scope string_scope.

(** ** Python [dict] with [str] keys and [str] values *)

Module PyDict.

Definition t : Type := list (string * string).

(** [k in d] *)
Fixpoint contains (k : string) (d : t) : bool :=
  match d with
  | [] => false
  | (k', _) :: d' => if String.eqb k k' then true else contains k d'
  end.

(** [d.get(k)]: the value under [k], Python's [None] when [k] is absent. *)
Fixpoint get (k : string) (d : t) : option string :=
  match d with
  | [] => None
  | (k', v) :: d' => if String.eqb k k' then Some v else get k d'
  end.

(** [d[k] = v]: an existing key keeps its position and gets the new
    value, a new key is appended at the end. *)
Fixpoint setitem (k v : string) (d : t) : t :=
  match d with
  | [] => [(k, v)]
  | (k', v') :: d' =>
      if String.eqb k k' then (k, v) :: d' else (k', v') :: setitem k v d'
  end.

(** [d.keys()], in iteration order. *)
Definition keys (d : t) : list string := map fst d.

(** The entry [k: v] is in the dict. *)
Definition MapsTo (k v : string) (d : t) : Prop := In (k, v) d.

(** A Python dict holds each key once. *)
Definition wf (d : t) : Prop := NoDup (keys d).

End PyDict.

(** ** Exceptions and the handler monad *)

Inductive exn : Type :=
| ValueError (msg : string).

(** A handler runs on the current registry and yields either a raised
    exception or a returned value, together with the registry it leaves. *)
Definition M (A : Type) : Type := PyDict.t -> (exn + A) * PyDict.t.

Definition ret {A : Type} (a : A) : M A := fun d => (inr a, d).

Definition bind {A B : Type} (m : M A) (f : A -> M B) : M B :=
  fun d =>
    match m d with
    | (inl e, d') => (inl e, d')
    | (inr a, d') => f a d'
    end.

Definition raise {A : Type} (e : exn) : M A := fun d => (inl e, d).

(** Reading and rebinding the contents of the global [docs]. *)
Definition get_docs : M PyDict.t := fun d => (inr d, d).
Definition put_docs (d' : PyDict.t) : M unit := fun _ => (inr tt, d').

Notation "x <- m ;; k" := (bind m (fun x => k))
  (at level 61, m at next level, right associativity).
Notation "m ;; k" := (bind m (fun _ => k))
  (at level 61, right associativity).

(** ** The module *)

(** The literal the global [docs] is initialised with (lines 7-14). *)
Definition docs : PyDict.t :=
  [ ("deposition.md", "This deposition covers the testimony of Angela Smith, P.E.");
    ("report.pdf", "The report details the state of a 20m condenser tower.");
    ("financials.docx", "These financials outline the project's budget and expenditures.");
    ("outlook.pdf", "This document presents the projected future performance of the system.");
    ("plan.md", "The plan outlines the steps for the project's implementation.");
    ("spec.txt", "These specifications define the technical requirements for the equipment.") ].

(** [f"Document with ID '{doc_id}' not found."] *)
Definition not_found_msg (doc_id : string) : string :=
  "Document with ID '" ++ doc_id ++ "' not found.".

(** The error the spec calls NotFound: the [ValueError] raised for an
    unknown id. *)
Definition NotFound (doc_id : string) : exn := ValueError (not_found_msg doc_id).

(** Tool [read_doc].  The result is that of [docs.get(doc_id)], which is
    typed [Optional[str]]: [Some s] is the string [s], [None] is Python's
    [None]. *)
Definition read_document (doc_id : string) : M (option string) :=
  d <- get_docs ;;
  if negb (PyDict.contains doc_id d)
  then raise (ValueError (not_found_msg doc_id))
  else ret (PyDict.get doc_id d).

(** Tool [edit_doc].  The body falls off its end, so it returns [None]:
    [unit] here. *)
Definition edit_document (doc_id new_content : string) : M unit :=
  d <- get_docs ;;
  if negb (PyDict.contains doc_id d)
  then raise (ValueError (not_found_msg doc_id))
  else put_docs (PyDict.setitem doc_id new_content d).

(** Resource [docs://documents]. *)
Definition list_docs : M (list string) :=
  d <- get_docs ;;
  ret (PyDict.keys d).

(** Resource [docs://documents/{doc_id}]. *)
Definition get_doc_content (doc_id : string) : M (option string) :=
  d <- get_docs ;;
  if negb (PyDict.contains doc_id d)
  then raise (ValueError (not_found_msg doc_id))
  else ret (PyDict.get doc_id d).

(** [base.Message]: a role and the text it carries. *)
Record Message : Type := mkMessage { role : string; content : string }.

(** [base.UserMessage(content=...)] *)
Definition UserMessage (c : string) : Message :=
  {| role := "user"; content := c |}.

Definition nl : string := String (ascii_of_nat 10) EmptyString.

(** The two constant parts of the f-string of [format_document], before and
    after the interpolated [{doc_id}], line by line (lines 106-116). *)
Definition prompt_head : string :=
  nl ++
  "    Your goal is to reformat a document to be written with markdown syntax." ++ nl ++
  nl ++
  "    The id of the document you need to reformat is:" ++ nl ++
  "    <document_id>" ++ nl ++
  "    ".

Definition prompt_tail : string :=
  nl ++
  "    </document_id>" ++ nl ++
  nl ++
  "    Add in headers, bullet points, tables, etc as necessary. Feel free to add in structure." ++ nl ++
  "    Use the 'edit_document' tool to edit the document. After the document has been reformatted..." ++ nl ++
  "    ".

(** Prompt [format].  The statements after the [return] (a string literal
    spanning lines 134-140) are never executed. *)
Definition format_document (doc_id : string) : M (list Message) :=
  let prompt := prompt_head ++ doc_id ++ prompt_tail in
  ret [UserMessage prompt].

(** ** Substrings *)

(** [s in t] on Python strings. *)
Fixpoint substr (s t : string) : bool :=
  String.prefix s t
  || match t with
     | EmptyString => false
     | String _ t' => substr s t'
     end.

(** ** Requests and reachable registries *)

(** One call of one of the five registered handlers. *)
Inductive request : Type :=
| ReadDoc (doc_id : string)
| EditDoc (doc_id new_content : string)
| ListDocs
| GetDocContent (doc_id : string)
| Format (doc_id : string).

(** The registry a request leaves behind, whether it returned or raised. *)
Definition handle (r : request) (d : PyDict.t) : PyDict.t :=
  match r with
  | ReadDoc doc_id => snd (read_document doc_id d)
  | EditDoc doc_id new_content => snd (edit_document doc_id new_content d)
  | ListDocs => snd (list_docs d)
  | GetDocContent doc_id => snd (get_doc_content doc_id d)
  | Format doc_id => snd (format_document doc_id d)
  end.

(** The registries the process can be in: the seeded one, and any registry
    obtained from a reachable one by serving a request. *)
Inductive reachable : PyDict.t -> Prop :=
| reach_init : reachable docs
| reach_step (d : PyDict.t) (r : request) :
    reachable d -> reachable (handle r d).

(** The ids of the seeded registry, in the order of the literal. *)
Definition seeded_ids : list string :=
  ["deposition.md"; "report.pdf"; "financials.docx"; "outlook.pdf"; "plan.md"; "spec.txt"].

(** ** Sequences of requests *)

(** The registry left by serving the requests [rs] one after the other,
    first to last, starting from [d].  A request that raises does not stop
    the ones after it: each is a call of its own. *)
Definition run_requests (rs : list request) (d : PyDict.t) : PyDict.t :=
  fold_left (fun d' r => handle r d') rs d.

(** Calls of the tool [edit_doc]. *)
Definition is_edit (r : request) : bool :=
  match r with
  | EditDoc _ _ => true
  | _ => false
  end.

(** The [new_content] of the last [edit_doc] call for [doc_id] among [rs],
    if there is one. *)
Fixpoint last_edit (doc_id : string) (rs : list request) : option string :=
  match rs with
  | [] => None
  | r :: rs' =>
      match last_edit doc_id rs' with
      | Some x => Some x
      | None =>
          match r with
          | EditDoc k x => if String.eqb k doc_id then Some x else None
          | _ => None
          end
      end
  end.

(** The line-wrapped block the prompt of [format_document] puts the id in
    (lines 110-112). *)
Definition document_id_block (doc_id : string) : string :=
  "<document_id>" ++ nl ++
  "    " ++ doc_id ++ nl ++
  "    </document_id>".

(** ** Facts about the dict operations *)

Section PyDictFacts.

Implicit Types (k v : string) (d : PyDict.t).

Lemma contains_In k d : PyDict.contains k d = true <-> In k (PyDict.keys d).
Proof.
  induction d as [| [k' v'] d IH]; simpl.
  - split; [discriminate | contradiction].
  - destruct (String.eqb_spec k k') as [-> | Hne].
    + split; auto.
    + rewrite IH. split; [auto | intros [Heq | Hin]; [congruence | exact Hin]].
Qed.

Lemma contains_false_In k d :
  PyDict.contains k d = false <-> ~ In k (PyDict.keys d).
Proof.
  rewrite <- contains_In. destruct (PyDict.contains k d); split; congruence.
Qed.

Lemma get_None_contains k d :
  PyDict.get k d = None <-> PyDict.contains k d = false.
Proof.
  induction d as [| [k' v'] d IH]; simpl.
  - tauto.
  - destruct (String.eqb k k'); [split; discriminate | exact IH].
Qed.

Lemma get_MapsTo k v d : PyDict.get k d = Some v -> PyDict.MapsTo k v d.
Proof.
  unfold PyDict.MapsTo.
  induction d as [| [k' v'] d IH]; simpl; [discriminate |].
  destruct (String.eqb_spec k k') as [-> | Hne].
  - intros [= ->]. now left.
  - intros H. right. auto.
Qed.

Lemma MapsTo_get k v d :
  PyDict.wf d -> PyDict.MapsTo k v d -> PyDict.get k d = Some v.
Proof.
  unfold PyDict.wf, PyDict.MapsTo.
  induction d as [| [k' v'] d IH]; simpl; [contradiction |].
  intros Hnd [Heq | Hin]; inversion Hnd as [| ? ? Hnotin Hnd']; subst.
  - injection Heq as -> ->. now rewrite String.eqb_refl.
  - destruct (String.eqb_spec k k') as [-> | Hne]; [| auto].
    exfalso. apply Hnotin. change k' with (fst (k', v)). now apply in_map.
Qed.

Lemma get_setitem_eq k v d : PyDict.get k (PyDict.setitem k v d) = Some v.
Proof.
  induction d as [| [k' v'] d IH]; simpl.
  - now rewrite String.eqb_refl.
  - destruct (String.eqb k k') eqn:E; simpl; rewrite ?String.eqb_refl, ?E; auto.
Qed.

Lemma get_setitem_ne k k1 v d :
  k1 <> k -> PyDict.get k1 (PyDict.setitem k v d) = PyDict.get k1 d.
Proof.
  intros Hne. apply String.eqb_neq in Hne.
  induction d as [| [k' v'] d IH]; simpl.
  - now rewrite Hne.
  - destruct (String.eqb_spec k k') as [<- | Hkk']; simpl.
    + now rewrite Hne.
    + now rewrite IH.
Qed.

Lemma contains_setitem k v d : PyDict.contains k (PyDict.setitem k v d) = true.
Proof.
  destruct (PyDict.contains k (PyDict.setitem k v d)) eqn:E; [reflexivity |].
  apply get_None_contains in E. now rewrite get_setitem_eq in E.
Qed.

Lemma keys_setitem_in k v d :
  PyDict.contains k d = true ->
  PyDict.keys (PyDict.setitem k v d) = PyDict.keys d.
Proof.
  unfold PyDict.keys.
  induction d as [| [k' v'] d IH]; simpl; [discriminate |].
  destruct (String.eqb_spec k k') as [-> | Hne]; simpl.
  - reflexivity.
  - intros H. now rewrite IH.
Qed.

Lemma keys_setitem_notin k v d :
  PyDict.contains k d = false ->
  PyDict.keys (PyDict.setitem k v d) = (PyDict.keys d ++ [k])%list.
Proof.
  unfold PyDict.keys.
  induction d as [| [k' v'] d IH]; simpl; [reflexivity |].
  destruct (String.eqb k k'); [discriminate |].
  intros H. simpl. now rewrite IH.
Qed.

Lemma MapsTo_setitem_ne k k1 v v1 d :
  k1 <> k ->
  PyDict.MapsTo k1 v1 (PyDict.setitem k v d) <-> PyDict.MapsTo k1 v1 d.
Proof.
  unfold PyDict.MapsTo. intros Hne.
  induction d as [| [k' v'] d IH]; simpl.
  - split; [intros [[= ? ?] | []]; congruence | contradiction].
  - destruct (String.eqb_spec k k') as [<- | Hkk']; simpl.
    + split; (intros [[= ? ?] | Hin]; [congruence | now right]).
    + rewrite IH. reflexivity.
Qed.

Lemma wf_setitem k v d : PyDict.wf d -> PyDict.wf (PyDict.setitem k v d).
Proof.
  unfold PyDict.wf. intros Hwf.
  destruct (PyDict.contains k d) eqn:E.
  - now rewrite keys_setitem_in.
  - rewrite keys_setitem_notin by exact E.
    apply contains_false_In in E.
    apply NoDup_rev in Hwf. rewrite <- (rev_involutive (_ ++ _)%list).
    apply NoDup_rev. rewrite rev_app_distr. simpl.
    constructor; [now rewrite <- in_rev | exact Hwf].
Qed.

End PyDictFacts.

(** ** Facts about substrings *)

Section SubstrFacts.

Implicit Types (s t pre post : string).

Lemma prefix_app s post : String.prefix s (s ++ post) = true.
Proof.
  induction s as [| a s IH]; simpl.
  - now destruct post.
  - destruct (ascii_dec a a); [exact IH | congruence].
Qed.

Lemma prefix_split s t : String.prefix s t = true -> exists post, t = s ++ post.
Proof.
  revert t. induction s as [| a s IH]; intros t.
  - intros _. now exists t.
  - destruct t as [| b t]; simpl; [discriminate |].
    destruct (ascii_dec a b) as [-> | _]; [| discriminate].
    intros H. destruct (IH _ H) as [post ->]. now exists post.
Qed.

Lemma substr_skip s pre t : substr s t = true -> substr s (pre ++ t) = true.
Proof.
  intros H. induction pre as [| a pre IH]; [exact H |].
  cbn [append substr]. rewrite IH. apply orb_true_r.
Qed.

Lemma substr_prefix s t : String.prefix s t = true -> substr s t = true.
Proof. intros H. destruct t; cbn [substr]; rewrite H; reflexivity. Qed.

Lemma substr_here s post : substr s (s ++ post) = true.
Proof. apply substr_prefix, prefix_app. Qed.

(** [substr] decides occurrence as a contiguous block. *)
Lemma substr_iff s t :
  substr s t = true <-> exists pre post, t = pre ++ s ++ post.
Proof.
  split.
  - induction t as [| b t IH]; cbn [substr]; rewrite orb_true_iff.
    + intros [H | H]; [| discriminate].
      apply prefix_split in H as [post ->]. now exists "", post.
    + intros [H | H].
      * apply prefix_split in H as [post ->]. now exists "", post.
      * destruct (IH H) as (pre & post & ->). now exists (String b pre), post.
  - intros (pre & post & ->). apply substr_skip, substr_here.
Qed.

End SubstrFacts.

(** ** Sanity checks of the embedding on concrete inputs *)

Example prompt_head_length : String.length prompt_head = 152.
Proof. reflexivity. Qed.

Example prompt_tail_length : String.length prompt_tail = 215.
Proof. reflexivity. Qed.

Example read_plan :
  read_document "plan.md" docs
  = (inr (Some "The plan outlines the steps for the project's implementation."), docs).
Proof. reflexivity. Qed.

Example read_nope :
  read_document "nope" docs
  = (inl (ValueError "Document with ID 'nope' not found."), docs).
Proof. reflexivity. Qed.

Example edit_nope : edit_document "nope" "x" docs = (inl (NotFound "nope"), docs).
Proof. reflexivity. Qed.

Example edit_report_keeps_position :
  PyDict.keys (snd (edit_document "report.pdf" "new" docs)) = seeded_ids.
Proof. reflexivity. Qed.

Example format_nope_contains :
  match fst (format_document "nope" docs) with
  | inr [m] => substr "nope" (content m)
  | _ => false
  end = true.
Proof. reflexivity. Qed.

Lemma docs_wf : PyDict.wf docs.
Proof.
  unfold PyDict.wf. simpl.
  repeat (constructor; [simpl; intros H; repeat (destruct H as [H | H]; [discriminate H |]); exact H |]).
  constructor.
Qed.

Lemma docs_keys : PyDict.keys docs = seeded_ids.
Proof. reflexivity. Qed.

(** ** Running a handler *)

Section HandlerFacts.

Implicit Types (doc_id X : string) (d : PyDict.t).

Lemma read_document_present doc_id d :
  PyDict.contains doc_id d = true ->
  read_document doc_id d = (inr (PyDict.get doc_id d), d).
Proof. intros H. unfold read_document, bind, get_docs. now rewrite H. Qed.

Lemma read_document_absent doc_id d :
  PyDict.contains doc_id d = false ->
  read_document doc_id d = (inl (NotFound doc_id), d).
Proof. intros H. unfold read_document, bind, get_docs. now rewrite H. Qed.

Lemma edit_document_present doc_id X d :
  PyDict.contains doc_id d = true ->
  edit_document doc_id X d = (inr tt, PyDict.setitem doc_id X d).
Proof. intros H. unfold edit_document, bind, get_docs. now rewrite H. Qed.

Lemma edit_document_absent doc_id X d :
  PyDict.contains doc_id d = false ->
  edit_document doc_id X d = (inl (NotFound doc_id), d).
Proof. intros H. unfold edit_document, bind, get_docs. now rewrite H. Qed.

Lemma read_document_state doc_id d : snd (read_document doc_id d) = d.
Proof.
  destruct (PyDict.contains doc_id d) eqn:E.
  - now rewrite read_document_present.
  - now rewrite read_document_absent.
Qed.

Lemma edit_document_keys doc_id X d :
  PyDict.keys (snd (edit_document doc_id X d)) = PyDict.keys d.
Proof.
  destruct (PyDict.contains doc_id d) eqn:E.
  - rewrite edit_document_present by exact E. now apply keys_setitem_in.
  - now rewrite edit_document_absent.
Qed.

Lemma handle_keys (r : request) d : PyDict.keys (handle r d) = PyDict.keys d.
Proof.
  destruct r as [doc_id | doc_id X | | doc_id | doc_id]; simpl.
  - now rewrite read_document_state.
  - apply edit_document_keys.
  - reflexivity.
  - change (get_doc_content doc_id) with (read_document doc_id).
    now rewrite read_document_state.
  - reflexivity.
Qed.

Lemma handle_wf (r : request) d : PyDict.wf d -> PyDict.wf (handle r d).
Proof. unfold PyDict.wf. now rewrite handle_keys. Qed.

Lemma reachable_wf d : reachable d -> PyDict.wf d.
Proof.
  induction 1 as [| d r _ IH]; [exact docs_wf | now apply handle_wf].
Qed.

End HandlerFacts.

(** ** The properties of the specification *)

(** C1. For a [doc_id] present in the registry and any string [X], running
    [edit_doc(doc_id, X)] and then [read_doc(doc_id)] on any registry returns
    exactly [X] (and does not raise). *)
Theorem edit_then_read (doc_id X : string) (d : PyDict.t) :
  In doc_id (PyDict.keys d) ->
  fst ((edit_document doc_id X ;; read_document doc_id) d) = inr (Some X).
Proof.
  intros Hin. apply contains_In in Hin.
  unfold bind at 1. rewrite edit_document_present by exact Hin.
  rewrite read_document_present by apply contains_setitem.
  simpl. now rewrite get_setitem_eq.
Qed.

Lemma edit_then_read_witness :
  fst ((edit_document "plan.md" "# Plan" ;; read_document "plan.md") docs)
  = inr (Some "# Plan").
Proof.
  apply (edit_then_read "plan.md" "# Plan" docs).
  simpl. tauto.
Defined.

(** C2. On a registry [d] (a dict, so each key occurs once), [read_doc(doc_id)]
    raises if and only if [doc_id] is not a key of [d], the exception it
    raises is then the not-found error for [doc_id], and when the entry
    [doc_id: c] is in [d] it returns the stored string [c] unchanged, leaving
    the registry as it was. *)
Theorem read_document_spec (doc_id : string) (d : PyDict.t) :
  PyDict.wf d ->
  ((exists e, fst (read_document doc_id d) = inl e) <-> ~ In doc_id (PyDict.keys d))
  /\ (forall e, fst (read_document doc_id d) = inl e -> e = NotFound doc_id)
  /\ (forall c, PyDict.MapsTo doc_id c d -> read_document doc_id d = (inr (Some c), d)).
Proof.
  intros Hwf. rewrite <- contains_false_In.
  destruct (PyDict.contains doc_id d) eqn:E.
  - rewrite read_document_present by exact E. simpl. repeat split.
    + intros [e He]. discriminate He.
    + discriminate.
    + discriminate.
    + intros c Hc. now rewrite (MapsTo_get _ _ _ Hwf Hc).
  - rewrite read_document_absent by exact E. simpl. repeat split.
    + now exists (NotFound doc_id).
    + now intros e [= <-].
    + intros c Hc. apply (MapsTo_get _ _ _ Hwf) in Hc.
      apply get_None_contains in E. congruence.
Qed.

Lemma read_document_spec_witness :
  ((exists e, fst (read_document "plan.md" docs) = inl e)
   <-> ~ In "plan.md" (PyDict.keys docs))
  /\ (forall e, fst (read_document "plan.md" docs) = inl e -> e = NotFound "plan.md")
  /\ (forall c, PyDict.MapsTo "plan.md" c docs ->
        read_document "plan.md" docs = (inr (Some c), docs)).
Proof.
  apply (read_document_spec "plan.md" docs).
  exact docs_wf.
Defined.

(** C3. For a [doc_id] that is not a key of the registry and any string [X],
    [edit_doc(doc_id, X)] raises the not-found error for [doc_id] and leaves
    the registry, keys and contents, exactly as it was. *)
Theorem edit_document_unknown (doc_id X : string) (d : PyDict.t) :
  ~ In doc_id (PyDict.keys d) ->
  edit_document doc_id X d = (inl (NotFound doc_id), d).
Proof.
  intros Hnotin. apply contains_false_In in Hnotin.
  now apply edit_document_absent.
Qed.

Lemma edit_document_unknown_witness :
  edit_document "nope" "X" docs = (inl (NotFound "nope"), docs).
Proof.
  apply (edit_document_unknown "nope" "X" docs).
  simpl. intros H. repeat (destruct H as [H | H]; [discriminate H |]). exact H.
Defined.

(** C4. On the seeded registry [list_docs()] returns the six seeded ids in the
    order of the literal; on every registry it returns (the keys in
    iteration order) and never raises, leaving the registry as it was. *)
Theorem list_docs_spec :
  fst (list_docs docs)
  = inr ["deposition.md"; "report.pdf"; "financials.docx"; "outlook.pdf";
         "plan.md"; "spec.txt"]
  /\ forall d : PyDict.t, list_docs d = (inr (PyDict.keys d), d).
Proof. split; [reflexivity | intros d; reflexivity]. Qed.

(** C5. On the seeded registry, [read_doc] of each of the six seeded ids
    returns exactly the string that id has in the initialisation literal. *)
Theorem read_document_seeded :
  fst (read_document "deposition.md" docs)
  = inr (Some "This deposition covers the testimony of Angela Smith, P.E.")
  /\ fst (read_document "report.pdf" docs)
     = inr (Some "The report details the state of a 20m condenser tower.")
  /\ fst (read_document "financials.docx" docs)
     = inr (Some "These financials outline the project's budget and expenditures.")
  /\ fst (read_document "outlook.pdf" docs)
     = inr (Some "This document presents the projected future performance of the system.")
  /\ fst (read_document "plan.md" docs)
     = inr (Some "The plan outlines the steps for the project's implementation.")
  /\ fst (read_document "spec.txt" docs)
     = inr (Some "These specifications define the technical requirements for the equipment.").
Proof. repeat split. Qed.

(** C6. On any registry, [format("plan.md")] returns a list of exactly one
    message whose text contains "plan.md" and "edit_document"; and for every
    [doc_id] the one message returned by [format(doc_id)] contains [doc_id]
    in its text. *)
Theorem format_document_plan (d : PyDict.t) :
  (exists m : Message,
      fst (format_document "plan.md" d) = inr [m]
      /\ substr "plan.md" (content m) = true
      /\ substr "edit_document" (content m) = true)
  /\ (forall doc_id : string,
        exists m : Message,
          fst (format_document doc_id d) = inr [m]
          /\ substr doc_id (content m) = true).
Proof.
  split.
  - eexists. split; [reflexivity |]. split; reflexivity.
  - intros doc_id. exists (UserMessage (prompt_head ++ doc_id ++ prompt_tail)).
    split; [reflexivity |].
    cbn [content UserMessage]. apply substr_skip, substr_here.
Qed.

(** C7. For every string [doc_id] and every registry, whether or not
    [doc_id] is one of its keys, [format(doc_id)] returns (it does not raise)
    one user message, and leaves the registry as it was.  The text of the
    message is the fixed template of the source, line for line, with
    [doc_id] put in the place of [{doc_id}] and nothing else changed: it
    contains [doc_id], and it names the [edit_document] tool.  The message
    does not depend on the registry, which the handler never consults. *)
Theorem format_document_total (doc_id : string) (d : PyDict.t) :
  exists m : Message,
    format_document doc_id d = (inr [m], d)
    /\ role m = "user"
    /\ content m
       = nl ++
         "    Your goal is to reformat a document to be written with markdown syntax." ++ nl ++
         nl ++
         "    The id of the document you need to reformat is:" ++ nl ++
         "    <document_id>" ++ nl ++
         "    " ++ doc_id ++ nl ++
         "    </document_id>" ++ nl ++
         nl ++
         "    Add in headers, bullet points, tables, etc as necessary. Feel free to add in structure." ++ nl ++
         "    Use the 'edit_document' tool to edit the document. After the document has been reformatted..." ++ nl ++
         "    "
    /\ substr doc_id (content m) = true
    /\ substr "Use the 'edit_document' tool to edit the document." (content m) = true
    /\ forall d' : PyDict.t, fst (format_document doc_id d') = inr [m].
Proof.
  exists (UserMessage (prompt_head ++ doc_id ++ prompt_tail)).
  split; [reflexivity |]. split; [reflexivity |].
  cbn [content UserMessage].
  split; [reflexivity |]. split; [| split].
  - apply substr_skip, substr_here.
  - do 2 apply substr_skip. reflexivity.
  - reflexivity.
Qed.

(** C8. No request changes the keys of the registry (nor their order),
    whether it is served by [read_doc], [edit_doc], [list_docs], the
    [documents/{doc_id}] resource or [format], and whether it returns or
    raises; hence every registry reachable from the seeded one has exactly
    the six seeded ids as keys. *)
Theorem keys_invariant :
  (forall (r : request) (d : PyDict.t), PyDict.keys (handle r d) = PyDict.keys d)
  /\ (forall d : PyDict.t,
        reachable d ->
        PyDict.keys d
        = ["deposition.md"; "report.pdf"; "financials.docx"; "outlook.pdf";
           "plan.md"; "spec.txt"]).
Proof.
  split; [exact handle_keys |].
  induction 1 as [| d r _ IH]; [reflexivity |].
  now rewrite handle_keys.
Qed.

Lemma keys_invariant_witness :
  PyDict.keys (handle (EditDoc "plan.md" "# Plan") (handle (EditDoc "new.md" "x") docs))
  = ["deposition.md"; "report.pdf"; "financials.docx"; "outlook.pdf";
     "plan.md"; "spec.txt"].
Proof.
  apply (proj2 keys_invariant).
  apply reach_step, reach_step, reach_init.
Defined.

(** C9. The tool [read_doc] and the resource [documents/{doc_id}] are the
    same function of the id and the registry: on every input both raise the
    same not-found error, or both return the same string. *)
Theorem read_document_get_doc_content (doc_id : string) (d : PyDict.t) :
  read_document doc_id d = get_doc_content doc_id d
  /\ ((fst (read_document doc_id d) = inl (NotFound doc_id)
       /\ fst (get_doc_content doc_id d) = inl (NotFound doc_id))
      \/ (exists c : string,
             fst (read_document doc_id d) = inr (Some c)
             /\ fst (get_doc_content doc_id d) = inr (Some c))).
Proof.
  split; [reflexivity |].
  change (get_doc_content doc_id d) with (read_document doc_id d).
  destruct (PyDict.contains doc_id d) eqn:E.
  - right. rewrite read_document_present by exact E. simpl.
    destruct (PyDict.get doc_id d) as [c |] eqn:G.
    + now exists c.
    + apply get_None_contains in G. congruence.
  - left. now rewrite read_document_absent.
Qed.

(** C10. For a [doc_id] present in the registry and any string [X],
    [edit_doc(doc_id, X)] changes the entry of [doc_id] only: it keeps the
    keys and their order, and under every other key the same content is
    stored and read as before; and [read_doc] leaves the registry as it
    was, whatever id it is called with. *)
Theorem edit_document_frame (doc_id X : string) (d : PyDict.t) :
  In doc_id (PyDict.keys d) ->
  PyDict.keys (snd (edit_document doc_id X d)) = PyDict.keys d
  /\ (forall k : string,
        k <> doc_id ->
        PyDict.get k (snd (edit_document doc_id X d)) = PyDict.get k d
        /\ (forall c : string,
              PyDict.MapsTo k c (snd (edit_document doc_id X d))
              <-> PyDict.MapsTo k c d)
        /\ fst (read_document k (snd (edit_document doc_id X d)))
           = fst (read_document k d))
  /\ (forall k : string, snd (read_document k d) = d).
Proof.
  intros Hin. apply contains_In in Hin.
  split; [apply edit_document_keys |].
  split; [| intros k; apply read_document_state].
  intros k Hne. rewrite edit_document_present by exact Hin. simpl.
  split; [now apply get_setitem_ne |].
  split; [intros c; now apply MapsTo_setitem_ne |].
  destruct (PyDict.contains k d) eqn:E.
  - assert (E' : PyDict.contains k (PyDict.setitem doc_id X d) = true).
    { apply contains_In. rewrite keys_setitem_in by exact Hin.
      now apply contains_In. }
    rewrite !read_document_present by assumption. simpl.
    now rewrite get_setitem_ne.
  - assert (E' : PyDict.contains k (PyDict.setitem doc_id X d) = false).
    { apply contains_false_In. rewrite keys_setitem_in by exact Hin.
      now apply contains_false_In. }
    now rewrite !read_document_absent by assumption.
Qed.

Lemma edit_document_frame_witness :
  PyDict.keys (snd (edit_document "plan.md" "# Plan" docs)) = PyDict.keys docs
  /\ (forall k : string,
        k <> "plan.md" ->
        PyDict.get k (snd (edit_document "plan.md" "# Plan" docs)) = PyDict.get k docs
        /\ (forall c : string,
              PyDict.MapsTo k c (snd (edit_document "plan.md" "# Plan" docs))
              <-> PyDict.MapsTo k c docs)
        /\ fst (read_document k (snd (edit_document "plan.md" "# Plan" docs)))
           = fst (read_document k docs))
  /\ (forall k : string, snd (read_document k docs) = docs).
Proof.
  apply (edit_document_frame "plan.md" "# Plan" docs).
  simpl. tauto.
Defined.

(** ** Further facts about the dict operations and strings *)

Section MoreFacts.

Implicit Types (k v : string) (d : PyDict.t) (s t u : string).

Lemma setitem_setitem k v1 v2 d :
  PyDict.setitem k v2 (PyDict.setitem k v1 d) = PyDict.setitem k v2 d.
Proof.
  induction d as [| [k' v'] d IH]; simpl.
  - now rewrite String.eqb_refl.
  - destruct (String.eqb k k') eqn:E; simpl.
    + now rewrite String.eqb_refl.
    + now rewrite E, IH.
Qed.

Lemma setitem_get_id k v d :
  PyDict.get k d = Some v -> PyDict.setitem k v d = d.
Proof.
  induction d as [| [k' v'] d IH]; simpl; [discriminate |].
  destruct (String.eqb_spec k k') as [-> | Hne].
  - now intros [= ->].
  - intros H. now rewrite IH.
Qed.

Lemma setitem_comm k1 k2 v1 v2 d :
  k1 <> k2 ->
  PyDict.contains k1 d = true ->
  PyDict.setitem k1 v1 (PyDict.setitem k2 v2 d)
  = PyDict.setitem k2 v2 (PyDict.setitem k1 v1 d).
Proof.
  intros Hne. induction d as [| [k' v'] d IH]; simpl; [discriminate |].
  destruct (String.eqb_spec k1 k') as [E1 | E1];
    destruct (String.eqb_spec k2 k') as [E2 | E2]; simpl; intros Hc.
  - congruence.
  - subst k'. rewrite String.eqb_refl.
    apply String.eqb_neq in E2. now rewrite E2.
  - subst k'. rewrite String.eqb_refl.
    apply String.eqb_neq in E1. now rewrite E1.
  - apply String.eqb_neq in E1, E2. rewrite E1, E2. now rewrite IH.
Qed.

Lemma contains_setitem_ne k k1 v d :
  k1 <> k -> PyDict.contains k1 (PyDict.setitem k v d) = PyDict.contains k1 d.
Proof.
  intros Hne.
  destruct (PyDict.contains k1 d) eqn:E.
  - destruct (PyDict.contains k1 (PyDict.setitem k v d)) eqn:E'; [reflexivity |].
    apply get_None_contains in E'. rewrite get_setitem_ne in E' by exact Hne.
    apply get_None_contains in E'. congruence.
  - apply get_None_contains. rewrite get_setitem_ne by exact Hne.
    now apply get_None_contains.
Qed.

Lemma append_assoc s t u : (s ++ t) ++ u = s ++ t ++ u.
Proof. induction s as [| a s IH]; simpl; [reflexivity | now rewrite IH]. Qed.

Lemma length_append s t :
  String.length (s ++ t) = String.length s + String.length t.
Proof. induction s as [| a s IH]; simpl; [reflexivity | now rewrite IH]. Qed.

Lemma append_inv_head s t u : s ++ t = s ++ u -> t = u.
Proof.
  induction s as [| a s IH]; simpl; [auto |].
  intros [= H]. auto.
Qed.

Lemma append_inv_tail s t u : s ++ u = t ++ u -> s = t.
Proof.
  revert t. induction s as [| a s IH]; intros [| b t]; simpl.
  - reflexivity.
  - intros H. apply (f_equal String.length) in H.
    simpl in H. rewrite length_append in H. lia.
  - intros H. apply (f_equal String.length) in H.
    simpl in H. rewrite length_append in H. lia.
  - intros [= -> H]. now rewrite (IH _ H).
Qed.

End MoreFacts.

Section RequestFacts.

Implicit Types (doc_id : string) (d : PyDict.t) (r : request).

Lemma handle_not_edit r d : is_edit r = false -> handle r d = d.
Proof.
  destruct r as [doc_id | doc_id X | | doc_id | doc_id]; simpl;
    try discriminate; intros _; try reflexivity.
  - apply read_document_state.
  - change (get_doc_content doc_id) with (read_document doc_id).
    apply read_document_state.
Qed.

Lemma handle_edit_present doc_id (x : string) d :
  PyDict.contains doc_id d = true ->
  handle (EditDoc doc_id x) d = PyDict.setitem doc_id x d.
Proof. intros H. simpl. now rewrite edit_document_present. Qed.

Lemma handle_edit_absent doc_id (x : string) d :
  PyDict.contains doc_id d = false -> handle (EditDoc doc_id x) d = d.
Proof. intros H. simpl. now rewrite edit_document_absent. Qed.

Lemma handle_contains r doc_id d :
  PyDict.contains doc_id (handle r d) = PyDict.contains doc_id d.
Proof.
  destruct (PyDict.contains doc_id d) eqn:E.
  - apply contains_In. rewrite handle_keys. now apply contains_In.
  - apply contains_false_In. rewrite handle_keys. now apply contains_false_In.
Qed.

(** What one request does to the content stored under a key that is
    present. *)
Lemma handle_get r doc_id d :
  PyDict.contains doc_id d = true ->
  PyDict.get doc_id (handle r d)
  = match r with
    | EditDoc k x => if String.eqb k doc_id then Some x else PyDict.get doc_id d
    | _ => PyDict.get doc_id d
    end.
Proof.
  intros Hc.
  destruct r as [k | k x | | k | k];
    try (now rewrite handle_not_edit by reflexivity).
  simpl. destruct (String.eqb_spec k doc_id) as [-> | Hne].
  - rewrite edit_document_present by exact Hc. apply get_setitem_eq.
  - destruct (PyDict.contains k d) eqn:Ek.
    + rewrite edit_document_present by exact Ek. simpl.
      apply get_setitem_ne. congruence.
    + now rewrite edit_document_absent.
Qed.

Lemma run_requests_contains (rs : list request) doc_id d :
  PyDict.contains doc_id (run_requests rs d) = PyDict.contains doc_id d.
Proof.
  revert d. induction rs as [| r rs IH]; intros d; simpl; [reflexivity |].
  unfold run_requests in IH. now rewrite IH, handle_contains.
Qed.

Lemma run_requests_get (rs : list request) doc_id d :
  PyDict.contains doc_id d = true ->
  PyDict.get doc_id (run_requests rs d)
  = match last_edit doc_id rs with
    | Some x => Some x
    | None => PyDict.get doc_id d
    end.
Proof.
  revert d. induction rs as [| r rs IH]; intros d Hc; [reflexivity |].
  change (run_requests (r :: rs) d) with (run_requests rs (handle r d)).
  rewrite IH by now rewrite handle_contains.
  cbn [last_edit]. destruct (last_edit doc_id rs); [reflexivity |].
  rewrite handle_get by exact Hc.
  destruct r as [k | k x | | k | k]; try reflexivity.
  now destruct (String.eqb k doc_id).
Qed.

End RequestFacts.

(** ** Further properties of the handlers *)

(** X1. When [read_doc] returns, what it returns is a string, never Python's
    [None], although it is the result of [docs.get]: the guard before it has
    checked the key.  The string is the content of an entry of the
    registry. *)
Theorem read_document_returns_str (doc_id : string) (d : PyDict.t)
    (v : option string) :
  fst (read_document doc_id d) = inr v ->
  exists c : string, v = Some c /\ PyDict.MapsTo doc_id c d.
Proof.
  destruct (PyDict.contains doc_id d) eqn:E.
  - rewrite read_document_present by exact E. simpl. intros [= <-].
    destruct (PyDict.get doc_id d) as [c |] eqn:G.
    + exists c. split; [reflexivity | now apply get_MapsTo].
    + apply get_None_contains in G. congruence.
  - rewrite read_document_absent by exact E. discriminate.
Qed.

Lemma read_document_returns_str_witness :
  exists c : string,
    Some "The report details the state of a 20m condenser tower." = Some c
    /\ PyDict.MapsTo "report.pdf" c docs.
Proof.
  apply (read_document_returns_str "report.pdf" docs).
  reflexivity.
Defined.

(** X2. [edit_doc(doc_id, X)] returns (with [None]) exactly when [doc_id] is
    a key of the registry; any exception it raises is the not-found error
    for [doc_id], and the registry is then as it was before the call. *)
Theorem edit_document_succeeds_iff (doc_id X : string) (d : PyDict.t) :
  (fst (edit_document doc_id X d) = inr tt <-> In doc_id (PyDict.keys d))
  /\ (forall e : exn,
        fst (edit_document doc_id X d) = inl e ->
        e = NotFound doc_id /\ snd (edit_document doc_id X d) = d).
Proof.
  rewrite <- contains_In.
  destruct (PyDict.contains doc_id d) eqn:E.
  - rewrite edit_document_present by exact E. simpl.
    split; [tauto | discriminate].
  - rewrite edit_document_absent by exact E. simpl.
    split; [split; discriminate |]. now intros e [= <-].
Qed.

(** X3. Two edits of the same document in a row behave as the second one
    alone: same outcome and same registry.  No trace of the first content is
    kept. *)
Theorem edit_edit_last_wins (doc_id X Y : string) (d : PyDict.t) :
  (edit_document doc_id X ;; edit_document doc_id Y) d = edit_document doc_id Y d.
Proof.
  unfold bind at 1.
  destruct (PyDict.contains doc_id d) eqn:E.
  - rewrite (edit_document_present doc_id X) by exact E.
    rewrite !edit_document_present by (exact E || apply contains_setitem).
    now rewrite setitem_setitem.
  - now rewrite !edit_document_absent by exact E.
Qed.

(** X4. Edit calls for two different ids can be served in either order: the
    registry left is the same, also when one or both of the ids are unknown
    and the call raises. *)
Theorem edits_commute (a b X Y : string) (d : PyDict.t) :
  a <> b ->
  handle (EditDoc a X) (handle (EditDoc b Y) d)
  = handle (EditDoc b Y) (handle (EditDoc a X) d).
Proof.
  intros Hne.
  assert (Hne' : b <> a) by congruence.
  destruct (PyDict.contains a d) eqn:Ea; destruct (PyDict.contains b d) eqn:Eb.
  - rewrite (handle_edit_present b Y d), (handle_edit_present a X d) by assumption.
    rewrite !handle_edit_present
      by (rewrite contains_setitem_ne by assumption; assumption).
    now apply setitem_comm.
  - rewrite (handle_edit_absent b Y d), (handle_edit_present a X d) by assumption.
    rewrite handle_edit_absent
      by (rewrite contains_setitem_ne by assumption; assumption).
    reflexivity.
  - rewrite (handle_edit_absent a X d), (handle_edit_present b Y d) by assumption.
    rewrite handle_edit_absent
      by (rewrite contains_setitem_ne by assumption; assumption).
    reflexivity.
  - now rewrite (handle_edit_absent b Y d), (handle_edit_absent a X d),
      (handle_edit_absent b Y d) by assumption.
Qed.

Lemma edits_commute_witness :
  handle (EditDoc "plan.md" "# Plan") (handle (EditDoc "nope" "x") docs)
  = handle (EditDoc "nope" "x") (handle (EditDoc "plan.md" "# Plan") docs).
Proof.
  apply (edits_commute "plan.md" "nope" "# Plan" "x" docs).
  discriminate.
Defined.

(** X5. Writing back the content that [read_doc] has just returned for a
    document leaves the registry exactly as it was. *)
Theorem edit_same_content_noop (doc_id c : string) (d : PyDict.t) :
  fst (read_document doc_id d) = inr (Some c) ->
  edit_document doc_id c d = (inr tt, d).
Proof.
  destruct (PyDict.contains doc_id d) eqn:E.
  - rewrite read_document_present by exact E. simpl. intros [= G].
    rewrite edit_document_present by exact E. now rewrite setitem_get_id.
  - rewrite read_document_absent by exact E. discriminate.
Qed.

Lemma edit_same_content_noop_witness :
  edit_document "spec.txt"
    "These specifications define the technical requirements for the equipment." docs
  = (inr tt, docs).
Proof.
  apply (edit_same_content_noop "spec.txt").
  reflexivity.
Defined.

(** X6. The resource [documents/{doc_id}] sees the edits made through the
    tool [edit_doc]: for a [doc_id] present in the registry, reading the
    resource after [edit_doc(doc_id, X)] returns [X]. *)
Theorem edit_then_get_doc_content (doc_id X : string) (d : PyDict.t) :
  In doc_id (PyDict.keys d) ->
  fst ((edit_document doc_id X ;; get_doc_content doc_id) d) = inr (Some X).
Proof.
  intros Hin. apply contains_In in Hin.
  unfold bind at 1. rewrite edit_document_present by exact Hin.
  unfold get_doc_content, bind, get_docs.
  rewrite contains_setitem. simpl. now rewrite get_setitem_eq.
Qed.

Lemma edit_then_get_doc_content_witness :
  fst ((edit_document "outlook.pdf" "" ;; get_doc_content "outlook.pdf") docs)
  = inr (Some "").
Proof.
  apply (edit_then_get_doc_content "outlook.pdf" "" docs).
  simpl. tauto.
Defined.

(** X7. After any sequence of calls, [read_doc(doc_id)] on a registry that
    started with [doc_id] among its keys returns the content of the last
    [edit_doc] call for [doc_id] in the sequence, or the starting content
    when the sequence has no such call; on a registry that started without
    [doc_id] it still raises the not-found error, whatever was called in
    between. *)
Theorem read_after_requests (rs : list request) (doc_id : string)
    (d : PyDict.t) :
  fst (read_document doc_id (run_requests rs d))
  = if PyDict.contains doc_id d
    then inr (match last_edit doc_id rs with
              | Some x => Some x
              | None => PyDict.get doc_id d
              end)
    else inl (NotFound doc_id).
Proof.
  destruct (PyDict.contains doc_id d) eqn:E.
  - rewrite read_document_present by now rewrite run_requests_contains.
    simpl. now rewrite run_requests_get.
  - now rewrite read_document_absent by now rewrite run_requests_contains.
Qed.

(** X8. Only [edit_doc] calls matter for the registry: serving a sequence of
    calls leaves the same registry as serving its [edit_doc] calls alone, in
    the same order.  [read_doc], [list_docs], the [documents/{doc_id}]
    resource and [format] change neither keys nor contents. *)
Theorem run_requests_only_edits (rs : list request) (d : PyDict.t) :
  run_requests rs d = run_requests (filter is_edit rs) d.
Proof.
  revert d. induction rs as [| r rs IH]; intros d; [reflexivity |].
  change (run_requests (r :: rs) d) with (run_requests rs (handle r d)).
  cbn [filter]. destruct (is_edit r) eqn:E.
  - change (run_requests (r :: filter is_edit rs) d)
      with (run_requests (filter is_edit rs) (handle r d)).
    apply IH.
  - rewrite handle_not_edit by exact E. apply IH.
Qed.

(** X9. The prompt of [format] determines the id it was built for: if
    [format(a)] and [format(b)] return the same messages, on whatever
    registries, then [a] and [b] are the same id. *)
Theorem format_document_injective (a b : string) (d d' : PyDict.t) :
  fst (format_document a d) = fst (format_document b d') -> a = b.
Proof.
  intros H.
  assert (Htext : prompt_head ++ a ++ prompt_tail = prompt_head ++ b ++ prompt_tail).
  { exact (f_equal (fun res : exn + list Message =>
                      match res with
                      | inr [m] => content m
                      | _ => ""
                      end) H). }
  apply append_inv_head in Htext.
  now apply append_inv_tail in Htext.
Qed.

Lemma format_document_injective_witness : "plan.md" = "plan.md".
Proof.
  apply (format_document_injective "plan.md" "plan.md" docs []).
  reflexivity.
Defined.

(** X10. In the text of the one message [format(doc_id)] returns, the id
    stands on a line of its own between the lines [<document_id>] and
    [</document_id>], each indented by four spaces. *)
Theorem format_document_block (doc_id : string) (d : PyDict.t) :
  exists m : Message,
    fst (format_document doc_id d) = inr [m]
    /\ substr (document_id_block doc_id) (content m) = true.
Proof.
  exists (UserMessage (prompt_head ++ doc_id ++ prompt_tail)).
  split; [reflexivity |].
  cbn [content UserMessage]. apply substr_iff.
  exists (nl ++
          "    Your goal is to reformat a document to be written with markdown syntax." ++ nl ++
          nl ++
          "    The id of the document you need to reformat is:" ++ nl ++
          "    ").
  exists (nl ++
          nl ++
          "    Add in headers, bullet points, tables, etc as necessary. Feel free to add in structure." ++ nl ++
          "    Use the 'edit_document' tool to edit the document. After the document has been reformatted..." ++ nl ++
          "    ").
  unfold document_id_block.
  rewrite !append_assoc. reflexivity.
Qed.
